(** * Verification of the POS checkout and reporting logic

    Shallow embedding of
    - [src/pages/pos/PosSales.tsx]: cart operations ([addToCart],
      [updateQuantity], [removeFromCart]), [cartTotal], [changeAmount] and
      [handleCheckout], and the product search;
    - [src/pages/pos/PosTransactions.tsx]: the search and date-bucket filters;
    - [src/pages/admin/SalesRevenueReport.tsx]: monthly order aggregation, the
      six-month chart series and month navigation,
      for both components the file defines;
    - [src/pages/admin/FinancialDashboard.tsx]: the profit estimator.

    Modelling choices.  Monetary values, quantities and stock levels are
    integers (yen have no fractional digits) and are modelled as [Z]; the
    profit estimator multiplies by [0.5] and is modelled in [Q].  The cash
    field is an [<Input type="number">]: its value is the empty string or a
    numeric string, so it is modelled as [option Z] ([None] is the empty
    string, on which [Number] gives 0).  The Firestore collection
    [products] is a [gmap] from document id to the stored [stock] field;
    [pos_transactions] is the list of records added so far. *)

From Stdlib Require Import ZArith QArith String List.
From stdpp Require Import base gmap strings list.

Open Scope Z_scope.

(* ------------------------------------------------------------------ *)
(** ** Data model (PosSales.tsx) *)

Record Product := mkProduct {
  p_id : string;
  p_name : string;
  p_price : Z;
  p_category : string;
  p_stock : Z
}.

Record CartItem := mkCartItem {
  ci_id : string;
  ci_name : string;
  ci_price : Z;
  ci_quantity : Z;
  ci_category : string
}.

(** The object built as [transactionData]; the optional fields are the
    ones added by the conditional spread
    [...(paymentMethod === 'Tunai' && { cashAmount, changeAmount })]
    ([None]: the field is absent from the document). *)
Record TransactionData := mkTransactionData {
  td_items : list CartItem;
  td_total : Z;
  td_cashierName : string;
  td_timestamp : string;
  td_paymentMethod : string;
  td_customerName : string;
  td_cashAmount : option Z;
  td_changeAmount : option Z
}.

Record Transaction := mkTransaction {
  tx_id : string;
  tx_data : TransactionData
}.

(** The React state of the [PosSales] component that checkout touches. *)
Record PosState := mkPosState {
  products : list Product;
  cart : list CartItem;
  customerName : string;
  paymentMethod : string;
  cashAmount : option Z;
  recentTransactions : list Transaction;
  currentTransaction : option Transaction;
  showReceipt : bool
}.

(** The remote store: stock field of each [products] document, and the
    documents of [pos_transactions] in creation order. *)
Record Store := mkStore {
  db_stock : gmap string Z;
  db_transactions : list TransactionData
}.

(** [Number(cashAmount)] for the value of a number input. *)
Definition Number (s : option Z) : Z :=
  match s with None => 0 | Some z => z end.

(* ------------------------------------------------------------------ *)
(** ** Cart operations *)

Definition addToCart (product : Product) (prevCart : list CartItem)
    : list CartItem :=
  if p_stock product <=? 0 then prevCart
  else
    match List.find (fun item => String.eqb (ci_id item) (p_id product)) prevCart with
    | Some existingItem =>
        if ci_quantity existingItem + 1 >? p_stock product then prevCart
        else List.map (fun item =>
               if String.eqb (ci_id item) (p_id product)
               then {| ci_id := ci_id item; ci_name := ci_name item;
                       ci_price := ci_price item;
                       ci_quantity := ci_quantity item + 1;
                       ci_category := ci_category item |}
               else item) prevCart
    | None =>
        prevCart ++ [{| ci_id := p_id product; ci_name := p_name product;
                        ci_price := p_price product; ci_quantity := 1;
                        ci_category := p_category product |}]
    end.

Definition updateQuantity (products : list Product) (id : string) (change : Z)
    (prevCart : list CartItem) : list CartItem :=
  List.map (fun item =>
    if String.eqb (ci_id item) id then
      let product := List.find (fun p => String.eqb (p_id p) id) products in
      let newQuantity := ci_quantity item + change in
      if newQuantity <? 1 then item
      else match product with
           | Some p => if newQuantity >? p_stock p then item
                       else {| ci_id := ci_id item; ci_name := ci_name item;
                               ci_price := ci_price item;
                               ci_quantity := newQuantity;
                               ci_category := ci_category item |}
           | None => {| ci_id := ci_id item; ci_name := ci_name item;
                        ci_price := ci_price item;
                        ci_quantity := newQuantity;
                        ci_category := ci_category item |}
           end
    else item) prevCart.

Definition removeFromCart (id : string) (prevCart : list CartItem)
    : list CartItem :=
  List.filter (fun item => negb (String.eqb (ci_id item) id)) prevCart.

(** [cart.reduce((total, item) => total + (item.price * item.quantity), 0)] *)
Definition cartTotal (c : list CartItem) : Z :=
  List.fold_left (fun total item => total + ci_price item * ci_quantity item) c 0.

(** [Number(cashAmount) - cartTotal] *)
Definition changeAmount (st : PosState) : Z :=
  Number (cashAmount st) - cartTotal (cart st).

(* ------------------------------------------------------------------ *)
(** ** Checkout *)

(** The stock loop: for each cart line, [getDoc] re-reads the product
    document and, when it exists, [updateDoc] writes
    [currentStock - item.quantity]. *)
Fixpoint updateStock (items : list CartItem) (stock : gmap string Z)
    : gmap string Z :=
  match items with
  | [] => stock
  | item :: rest =>
      let stock' :=
        match stock !! ci_id item with
        | Some currentStock => <[ci_id item := currentStock - ci_quantity item]> stock
        | None => stock
        end in
      updateStock rest stock'
  end.

Inductive Toast := ToastEmptyCart | ToastInsufficientCash | ToastSuccess.

(** [handleCheckout]: [cashier] is the cashier name derived from the
    signed-in user, [now] the ISO string of [new Date()], [newId] the id
    Firestore assigns to the added document.  Store operations are taken
    to succeed. *)
Definition handleCheckout (cashier now newId : string) (st : PosState)
    (db : Store) : PosState * Store * Toast :=
  match cart st with
  | [] => (st, db, ToastEmptyCart)
  | _ =>
    if String.eqb (paymentMethod st) "Tunai"%string &&
       (Number (cashAmount st) <? cartTotal (cart st))
    then (st, db, ToastInsufficientCash)
    else
      let transactionData :=
        {| td_items := cart st;
           td_total := cartTotal (cart st);
           td_cashierName := cashier;
           td_timestamp := now;
           td_paymentMethod := paymentMethod st;
           td_customerName :=
             if String.eqb (customerName st) ""%string then "Pelanggan"%string else customerName st;
           td_cashAmount :=
             if String.eqb (paymentMethod st) "Tunai"%string
             then Some (Number (cashAmount st)) else None;
           td_changeAmount :=
             if String.eqb (paymentMethod st) "Tunai"%string
             then Some (changeAmount st) else None |} in
      let db1 := {| db_stock := db_stock db;
                    db_transactions := db_transactions db ++ [transactionData] |} in
      let db2 := {| db_stock := updateStock (cart st) (db_stock db1);
                    db_transactions := db_transactions db1 |} in
      let tx := {| tx_id := newId; tx_data := transactionData |} in
      let st' := {| products := products st;
                    cart := [];
                    customerName := ""%string;
                    paymentMethod := paymentMethod st;
                    cashAmount := None;
                    recentTransactions := firstn 5 (tx :: recentTransactions st);
                    currentTransaction := Some tx;
                    showReceipt := true |} in
      (st', db2, ToastSuccess)
  end.

(* ------------------------------------------------------------------ *)
(** ** Date-bucket filter (PosTransactions.tsx) *)

(** Instants are local wall-clock milliseconds (the [Date] value shifted
    by the local time-zone offset, taken constant), so that date-fns'
    [startOfDay], [endOfDay] and [subDays] act on whole days. *)
Definition day_ms : Z := 86400000.

Definition startOfDay (t : Z) : Z := t - t mod day_ms.

Definition endOfDay (t : Z) : Z := startOfDay t + day_ms - 1.

Definition subDays (t n : Z) : Z := t - n * day_ms.

(** date-fns [isWithinInterval]: both ends inclusive. *)
Definition isWithinInterval (t start end_ : Z) : bool :=
  (start <=? t) && (t <=? end_).

Inductive DateFilter := DF_all | DF_today | DF_yesterday | DF_week | DF_month.

(** The per-transaction test applied by the [dateFilter] effect, with
    [today = new Date()] and [transactionDate = parseISO(timestamp)]. *)
Definition dateFilterPred (dateFilter : DateFilter) (today transactionDate : Z)
    : bool :=
  match dateFilter with
  | DF_all => true
  | DF_today => isWithinInterval transactionDate (startOfDay today) (endOfDay today)
  | DF_yesterday =>
      let yesterday := subDays today 1 in
      isWithinInterval transactionDate (startOfDay yesterday) (endOfDay yesterday)
  | DF_week =>
      let weekAgo := subDays today 7 in
      isWithinInterval transactionDate (startOfDay weekAgo) (endOfDay today)
  | DF_month =>
      let monthAgo := subDays today 30 in
      isWithinInterval transactionDate (startOfDay monthAgo) (endOfDay today)
  end.

Definition applyDateFilter (dateFilter : DateFilter) (today : Z)
    (filtered : list (Transaction * Z)) : list (Transaction * Z) :=
  List.filter (fun '(_, transactionDate) =>
                 dateFilterPred dateFilter today transactionDate) filtered.

(* ------------------------------------------------------------------ *)
(** ** Orders (SalesRevenueReport.tsx, FinancialDashboard.tsx) *)

(** An [orders] document; [None] is a missing field. *)
Record Order := mkOrder {
  total_price : option Z;
  shipping_fee : option Z
}.

(** [x || 0] on a numeric field. *)
Definition orZero (x : option Z) : Z :=
  match x with Some v => v | None => 0 end.

Module SalesRevenueReport.

Record MonthlySales := mkMonthlySales {
  totalOrders : Z;
  totalRevenue : Z
}.

Record ChartData := mkChartData {
  name : string;
  orders : Z;
  revenue : Z
}.

(** The [snapshot.forEach] loop: one increment of the counter and one
    addition of [total_price || 0] per document. *)
Definition aggregate (docs : list Order) : MonthlySales :=
  List.fold_left (fun acc order =>
    {| totalOrders := totalOrders acc + 1;
       totalRevenue := totalRevenue acc + orZero (total_price order) |})
    docs {| totalOrders := 0; totalRevenue := 0 |}.

(** [Math.floor(Math.random() * k)] is an input [r] with [0 <= r < k]. *)
Definition random_ok (k r : Z) : Prop := 0 <= r < k.

(** [fetchMonthlyData]: [snapshot] is the result of [getDocs] ([None]: it
    threw), [prev] the [salesData] state read by the [catch] block and
    [rnd] the two random draws used there. *)
Definition fetchMonthlyData (prev : MonthlySales) (snapshot : option (list Order))
    (rnd : Z * Z) : MonthlySales :=
  match snapshot with
  | Some docs => aggregate docs
  | None =>
      if totalOrders prev =? 0
      then {| totalOrders := fst rnd + 10; totalRevenue := snd rnd + 100000 |}
      else prev
  end.

(** One iteration of the [for] loop of [fetchChartData]. *)
Definition chartEntry (monthName : string) (docs : list Order) (rnd : Z * Z)
    : ChartData :=
  let a := aggregate docs in
  if totalOrders a =? 0
  then {| name := monthName; orders := fst rnd + 5; revenue := snd rnd + 50000 |}
  else {| name := monthName; orders := totalOrders a; revenue := totalRevenue a |}.

(** The loop over the six months; [None] when one [getDocs] throws. *)
Fixpoint chartLoop (months : list (string * option (list Order) * (Z * Z)))
    : option (list ChartData) :=
  match months with
  | [] => Some []
  | (monthName, Some docs, rnd) :: rest =>
      match chartLoop rest with
      | Some cs => Some (chartEntry monthName docs rnd :: cs)
      | None => None
      end
  | (_, None, _) :: _ => None
  end.

(** [fetchChartData]: [months] lists, oldest first, each month's label,
    fetch result and random draws; [dummy] the labels and draws of the
    [catch] block. *)
Definition fetchChartData (months : list (string * option (list Order) * (Z * Z)))
    (dummy : list (string * (Z * Z))) : list ChartData :=
  match chartLoop months with
  | Some chartData => chartData
  | None =>
      List.map (fun '(monthName, rnd) =>
        {| name := monthName; orders := fst rnd + 5; revenue := snd rnd + 50000 |})
        dummy
  end.

End SalesRevenueReport.

Module FinancialDashboard.

Record MonthlyFinancials := mkMonthlyFinancials {
  revenue : Q;
  shippingFees : Q;
  grossProfit : Q;
  expenses : Q;
  netProfit : Q
}.

Record ChartData := mkChartData {
  name : string;
  c_revenue : Q;
  c_shippingFees : Q;
  c_grossProfit : Q;
  c_netProfit : Q
}.

(** The [snapshot.forEach] loop summing [total_price || 0] and
    [shipping_fee || 0]. *)
Definition sums (docs : list Order) : Z * Z :=
  List.fold_left (fun '(totalRevenue, totalShippingFees) order =>
    (totalRevenue + orZero (total_price order),
     totalShippingFees + orZero (shipping_fee order)))
    docs (0, 0).

(** [const expenses = 50000] *)
Definition expenses_const : Q := inject_Z 50000.

(** The three lets shared by both functions:
    [productCost], [grossProfit], [netProfit]. *)
Definition estimate (totalRevenue totalShippingFees : Z) : Q * Q * Q :=
  let productCost := ((inject_Z totalRevenue - inject_Z totalShippingFees) * (1 # 2))%Q in
  let grossProfit := (inject_Z totalRevenue - productCost)%Q in
  let netProfit := (grossProfit - expenses_const)%Q in
  (productCost, grossProfit, netProfit).

(** [fetchMonthlyData]: on a failed fetch the state is left as it was. *)
Definition fetchMonthlyData (prev : MonthlyFinancials)
    (snapshot : option (list Order)) : MonthlyFinancials :=
  match snapshot with
  | Some docs =>
      let '(totalRevenue, totalShippingFees) := sums docs in
      let '(_, grossProfit, netProfit) := estimate totalRevenue totalShippingFees in
      {| revenue := inject_Z totalRevenue;
         shippingFees := inject_Z totalShippingFees;
         grossProfit := grossProfit;
         expenses := expenses_const;
         netProfit := netProfit |}
  | None => prev
  end.

Definition chartEntry (monthName : string) (docs : list Order) : ChartData :=
  let '(revenue, shippingFees) := sums docs in
  let '(_, grossProfit, netProfit) := estimate revenue shippingFees in
  {| name := monthName;
     c_revenue := inject_Z revenue;
     c_shippingFees := inject_Z shippingFees;
     c_grossProfit := grossProfit;
     c_netProfit := netProfit |}.

Fixpoint chartLoop (months : list (string * option (list Order)))
    : option (list ChartData) :=
  match months with
  | [] => Some []
  | (monthName, Some docs) :: rest =>
      match chartLoop rest with
      | Some cs => Some (chartEntry monthName docs :: cs)
      | None => None
      end
  | (_, None) :: _ => None
  end.

(** [fetchChartData]: on error the chart state is left as it was. *)
Definition fetchChartData (prev : list ChartData)
    (months : list (string * option (list Order))) : list ChartData :=
  match chartLoop months with
  | Some chartData => chartData
  | None => prev
  end.

End FinancialDashboard.

(** Carts reachable from the empty cart through the three cart
    operations, the product list fetched on mount staying fixed; the
    products offered to [addToCart] are those of the list (the buttons
    are rendered from [filteredProducts], a sub-list of [products]).
    A checkout empties the cart, which is [reach_nil] again. *)
Inductive reachable (products : list Product) : list CartItem -> Prop :=
| reach_nil : reachable products []
| reach_add (p : Product) (c : list CartItem) :
    List.In p products -> reachable products c -> reachable products (addToCart p c)
| reach_update (id : string) (change : Z) (c : list CartItem) :
    reachable products c -> reachable products (updateQuantity products id change c)
| reach_remove (id : string) (c : list CartItem) :
    reachable products c -> reachable products (removeFromCart id c).

(** A line within the stock of its product. *)
Definition line_ok (products : list Product) (item : CartItem) : Prop :=
  (1 <= ci_quantity item) /\
  (exists p, List.In p products /\ p_id p = ci_id item /\ ci_quantity item <= p_stock p).

(* ------------------------------------------------------------------ *)
(** ** String helpers used by the search boxes

    Strings are byte strings; [toLowerCase] maps the ASCII capitals and
    leaves every other byte alone (JavaScript also lowercases non-ASCII
    letters; the properties proved below about searches hold for any
    lowercasing function applied to both sides). JavaScript's [trim],
    which strips Unicode white space, is left abstract: [filterProducts]
    takes it as an argument. *)

Definition lower_ascii (c : Ascii.ascii) : Ascii.ascii :=
  let n := Ascii.nat_of_ascii c in
  if (65 <=? n)%nat && (n <=? 90)%nat then Ascii.ascii_of_nat (n + 32) else c.

Fixpoint toLowerCase (s : string) : string :=
  match s with
  | EmptyString => EmptyString
  | String c s' => String (lower_ascii c) (toLowerCase s')
  end.

(** [s2] starts with [s1]. *)
Fixpoint startsWith (s1 s2 : string) : bool :=
  match s1, s2 with
  | EmptyString, _ => true
  | String _ _, EmptyString => false
  | String c1 s1', String c2 s2' => Ascii.eqb c1 c2 && startsWith s1' s2'
  end.

(** [s.includes(sub)]. *)
Fixpoint includes (s sub : string) : bool :=
  startsWith sub s ||
  match s with
  | EmptyString => false
  | String _ s' => includes s' sub
  end.

(** The [searchTerm] effect of [PosSales]: the product grid. *)
Definition filterProducts (trim : string -> string)
    (searchTerm : string) (products : list Product) : list Product :=
  if String.eqb (trim searchTerm) "" then products
  else List.filter (fun product =>
         includes (toLowerCase (p_name product)) (toLowerCase searchTerm) ||
         includes (toLowerCase (p_category product)) (toLowerCase searchTerm))
         products.

(* ------------------------------------------------------------------ *)
(** ** Transaction history search (PosTransactions.tsx) *)

(** A [pos_transactions] document as the history page reads it:
    [customerName] is optional, [timestamp] is [parseISO]'d. *)
Record HistoryTransaction := mkHistoryTransaction {
  h_id : string;
  h_customerName : option string;
  h_cashierName : string;
  h_timestamp : Z
}.

(** [customerName?.toLowerCase().includes(t)]: [undefined], hence false,
    when the name is missing. *)
Definition searchMatch (searchTerm : string) (t : HistoryTransaction) : bool :=
  let term := toLowerCase searchTerm in
  match h_customerName t with
  | Some n => includes (toLowerCase n) term
  | None => false
  end ||
  includes (toLowerCase (h_id t)) term ||
  includes (toLowerCase (h_cashierName t)) term.

(** The filter effect: the search filter when the term is non-empty,
    then the date filter unless it is ['all']. *)
Definition filterTransactions (searchTerm : string) (dateFilter : DateFilter)
    (today : Z) (transactions : list HistoryTransaction) : list HistoryTransaction :=
  let filtered :=
    if String.eqb searchTerm "" then transactions
    else List.filter (searchMatch searchTerm) transactions in
  match dateFilter with
  | DF_all => filtered
  | _ => List.filter (fun t => dateFilterPred dateFilter today (h_timestamp t)) filtered
  end.

(* ------------------------------------------------------------------ *)
(** ** Month navigation and averages (SalesRevenueReport.tsx) *)

(** [currentDate] is represented by its month, [12 * year + month]:
    [subMonths]/[addMonths] move it by one month (the day of the month
    is clamped, the month is exact), and the next button compares
    [format(_, 'yyyy-MM')], i.e. the months. *)
Definition goToPreviousMonth (currentMonth : Z) : Z := currentMonth - 1.

Definition goToNextMonth (currentMonth : Z) : Z := currentMonth + 1.

Definition nextDisabled (currentMonth nowMonth : Z) : bool := currentMonth =? nowMonth.

(** Months reachable from the initial [new Date()] by the two buttons; a
    click on the disabled button does nothing. *)
Inductive navReachable (nowMonth : Z) : Z -> Prop :=
| nav_start : navReachable nowMonth nowMonth
| nav_prev (m : Z) : navReachable nowMonth m -> navReachable nowMonth (goToPreviousMonth m)
| nav_next (m : Z) : navReachable nowMonth m -> nextDisabled m nowMonth = false ->
    navReachable nowMonth (goToNextMonth m).

(** The second [SalesRevenueReport] component of the same file (from
    line 472): its monthly fetch keeps the previous figures on error, and
    its chart carries the plain per-month aggregates, [[]] on error. *)
Module SalesRevenueReport2.
Import SalesRevenueReport.

Definition fetchMonthlyData (prev : MonthlySales) (snapshot : option (list Order))
    : MonthlySales :=
  match snapshot with
  | Some docs => aggregate docs
  | None => prev
  end.

Definition chartEntry (monthName : string) (docs : list Order) : ChartData :=
  let a := aggregate docs in
  {| name := monthName; orders := totalOrders a; revenue := totalRevenue a |}.

Fixpoint chartLoop (months : list (string * option (list Order)))
    : option (list ChartData) :=
  match months with
  | [] => Some []
  | (monthName, Some docs) :: rest =>
      match chartLoop rest with
      | Some cs => Some (chartEntry monthName docs :: cs)
      | None => None
      end
  | (_, None) :: _ => None
  end.

Definition fetchChartData (months : list (string * option (list Order)))
    : list ChartData :=
  match chartLoop months with
  | Some chartData => chartData
  | None => []
  end.

(** [transactions.filter(...)] of the transactions tab. *)
Record TxRow := mkTxRow { r_id : string; r_buyerName : string }.

Definition filteredTransactions (searchTerm : string) (transactions : list TxRow)
    : list TxRow :=
  List.filter (fun t =>
    includes (toLowerCase (r_buyerName t)) (toLowerCase searchTerm) ||
    includes (toLowerCase (r_id t)) (toLowerCase searchTerm)) transactions.

End SalesRevenueReport2.

(* ------------------------------------------------------------------ *)
(** ** Concrete data used by the examples *)

Definition kopi : Product := mkProduct "p1" "Kopi" 1000 "Minuman" 10.

Definition kopi_line (q : Z) : CartItem := mkCartItem "p1" "Kopi" 1000 q "Minuman".

Definition ex_state (c : list CartItem) (method : string) (cash : option Z) : PosState :=
  mkPosState [kopi] c "" method cash [] None false.

Definition ex_store (stock : Z) : Store := mkStore {[ "p1" := stock ]} [].

(* ================================================================== *)
(** * Properties of checkout *)

(** Total quantity the cart lines for product [k] ask for. *)
Fixpoint qty_for (k : string) (items : list CartItem) : Z :=
  match items with
  | [] => 0
  | item :: rest =>
      (if String.eqb (ci_id item) k then ci_quantity item else 0) + qty_for k rest
  end.

Lemma updateStock_lookup (items : list CartItem) (stock : gmap string Z) (k : string) :
  updateStock items stock !! k = (fun cur => cur - qty_for k items) <$> stock !! k.
Proof.
  revert stock. induction items as [|item rest IH]; intros stock; simpl.
  - destruct (stock !! k); simpl; f_equal; lia.
  - rewrite IH.
    destruct (String.eqb_spec (ci_id item) k) as [->|Hne].
    + destruct (stock !! k) as [cur|] eqn:Hk; simpl.
      * rewrite lookup_insert_eq. simpl. f_equal. lia.
      * rewrite Hk. reflexivity.
    + destruct (stock !! ci_id item) as [cur|] eqn:Hi.
      * rewrite lookup_insert_ne by congruence.
        destruct (stock !! k); simpl; f_equal; lia.
      * destruct (stock !! k); simpl; f_equal; lia.
Qed.

Lemma qty_for_unique (items : list CartItem) (item : CartItem) :
  List.NoDup (List.map ci_id items) -> List.In item items ->
  qty_for (ci_id item) items = ci_quantity item.
Proof.
  induction items as [|x rest IH]; simpl; intros Hnd Hin; [contradiction|].
  inversion Hnd as [|? ? Hnotin Hnd']; subst.
  destruct Hin as [->|Hin].
  - rewrite String.eqb_refl.
    assert (qty_for (ci_id item) rest = 0) as ->; [|lia].
    clear IH Hnd Hnd'. induction rest as [|y rest' IHr]; simpl in *; [reflexivity|].
    destruct (String.eqb_spec (ci_id y) (ci_id item)) as [He|He].
    + exfalso. apply Hnotin. left. exact He.
    + rewrite IHr; [lia|]. intros H. apply Hnotin. right. exact H.
  - destruct (String.eqb_spec (ci_id x) (ci_id item)) as [He|He].
    + exfalso. apply Hnotin. rewrite He. apply in_map. exact Hin.
    + rewrite IH; [lia|exact Hnd'|exact Hin].
Qed.

(** Shape of a successful checkout. *)
Lemma handleCheckout_success (cashier now newId : string) (st st' : PosState)
    (db db' : Store) :
  handleCheckout cashier now newId st db = (st', db', ToastSuccess) ->
  cart st <> [] /\
  db_stock db' = updateStock (cart st) (db_stock db) /\
  cart st' = [] /\
  exists td, db_transactions db' = db_transactions db ++ [td] /\
             td_items td = cart st /\ td_total td = cartTotal (cart st) /\
             td_cashAmount td =
               (if String.eqb (paymentMethod st) "Tunai"%string
                then Some (Number (cashAmount st)) else None) /\
             td_changeAmount td =
               (if String.eqb (paymentMethod st) "Tunai"%string
                then Some (Number (cashAmount st) - cartTotal (cart st)) else None).
Proof.
  unfold handleCheckout. destruct (cart st) as [|c l] eqn:Hc; [congruence|].
  destruct (_ && _); [congruence|].
  intros H. injection H as <- <-.
  split; [congruence|]. split; [reflexivity|]. split; [reflexivity|].
  eexists. split; [reflexivity|]. simpl.
  unfold changeAmount. rewrite Hc. repeat split; reflexivity.
Qed.

(** Checkout succeeds whenever both validations pass. *)
Lemma handleCheckout_passes (cashier now newId : string) (st : PosState) (db : Store) :
  cart st <> [] ->
  (String.eqb (paymentMethod st) "Tunai"%string = true ->
   cartTotal (cart st) <= Number (cashAmount st)) ->
  exists st' db', handleCheckout cashier now newId st db = (st', db', ToastSuccess).
Proof.
  intros Hne Hcash. unfold handleCheckout.
  destruct (String.eqb (paymentMethod st) "Tunai"%string) eqn:Hp; simpl.
  - specialize (Hcash eq_refl).
    destruct (Number (cashAmount st) <? cartTotal (cart st)) eqn:Hlt.
    + apply Z.ltb_lt in Hlt. lia.
    + destruct (cart st); [congruence|]. eexists _, _. reflexivity.
  - destruct (cart st); [congruence|]. eexists _, _. reflexivity.
Qed.

(** C1: after a successful checkout every product's stored stock is the
    stock re-read at checkout time minus the quantities of all cart lines
    for it, one decrement per line; for a cart with one line per product
    (as [addToCart] builds it), a line for [P] with quantity [q] leaves
    [P]'s stock at the re-read value minus [q]. *)
Theorem checkout_stock_decrement (cashier now newId : string) (st st' : PosState)
    (db db' : Store) (item : CartItem) (s0 : Z) :
  handleCheckout cashier now newId st db = (st', db', ToastSuccess) ->
  List.NoDup (List.map ci_id (cart st)) ->
  List.In item (cart st) ->
  db_stock db !! ci_id item = Some s0 ->
  db_stock db' !! ci_id item = Some (s0 - ci_quantity item) /\
  (forall k, db_stock db' !! k =
             (fun cur => cur - qty_for k (cart st)) <$> db_stock db !! k).
Proof.
  intros Hok Hnd Hin Hs0.
  destruct (handleCheckout_success _ _ _ _ _ _ _ Hok) as (_ & Hstock & _).
  rewrite Hstock. split.
  - rewrite updateStock_lookup, Hs0. simpl.
    rewrite qty_for_unique by assumption. reflexivity.
  - intros k. apply updateStock_lookup.
Qed.

(** C2: an empty cart, or a cash payment below the cart total, is turned
    away before any write: the store and the whole component state
    (cart, customer name, cash field) are returned unchanged, with a
    warning toast. *)
Theorem checkout_rejected_no_write (cashier now newId : string) (st : PosState)
    (db : Store) :
  cart st = [] \/
  (paymentMethod st = "Tunai"%string /\ Number (cashAmount st) < cartTotal (cart st)) ->
  exists t, handleCheckout cashier now newId st db = (st, db, t) /\ t <> ToastSuccess.
Proof.
  unfold handleCheckout. intros [Hc | [Hp Hlt]].
  - rewrite Hc. exists ToastEmptyCart. split; [reflexivity|discriminate].
  - rewrite Hp. simpl. apply Z.ltb_lt in Hlt. rewrite Hlt.
    destruct (cart st); exists ToastEmptyCart + exists ToastInsufficientCash;
      split; try reflexivity; discriminate.
Qed.

(** C3: a successful cash checkout with enough cash records
    [changeAmount = cashAmount - total]; for one line of price 1000 and
    quantity 2 paid with 5000 the total is 2000, the change 3000 and the
    checkout succeeds. *)
Theorem checkout_cash_change (cashier now newId : string) :
  (forall (st : PosState) (db : Store),
     cart st <> [] ->
     paymentMethod st = "Tunai"%string ->
     cartTotal (cart st) <= Number (cashAmount st) ->
     exists st' db' td,
       handleCheckout cashier now newId st db = (st', db', ToastSuccess) /\
       db_transactions db' = db_transactions db ++ [td] /\
       td_total td = cartTotal (cart st) /\
       td_cashAmount td = Some (Number (cashAmount st)) /\
       td_changeAmount td = Some (Number (cashAmount st) - td_total td)) /\
  (forall (st : PosState) (db : Store) (line : CartItem),
     ci_price line = 1000 -> ci_quantity line = 2 ->
     cart st = [line] -> paymentMethod st = "Tunai"%string ->
     cashAmount st = Some 5000 ->
     exists st' db' td,
       handleCheckout cashier now newId st db = (st', db', ToastSuccess) /\
       db_transactions db' = db_transactions db ++ [td] /\
       td_total td = 2000 /\ td_changeAmount td = Some 3000).
Proof.
  split.
  - intros st db Hne Hp Hle.
    destruct (handleCheckout_passes cashier now newId st db Hne) as (st' & db' & Hok).
    { intros _. exact Hle. }
    destruct (handleCheckout_success _ _ _ _ _ _ _ Hok)
      as (_ & _ & _ & td & Htx & _ & Htot & Hca & Hch).
    rewrite Hp in Hca, Hch. simpl in Hca, Hch.
    exists st', db', td. repeat split; try assumption. rewrite Htot. exact Hch.
  - intros st db line Hpr Hq Hc Hp Hcash.
    assert (Htot : cartTotal (cart st) = 2000)
      by (rewrite Hc; unfold cartTotal; simpl; rewrite Hpr, Hq; reflexivity).
    destruct (handleCheckout_passes cashier now newId st db) as (st' & db' & Hok).
    { rewrite Hc. discriminate. }
    { intros _. rewrite Htot, Hcash. simpl. lia. }
    destruct (handleCheckout_success _ _ _ _ _ _ _ Hok)
      as (_ & _ & _ & td & Htx & _ & Ht & _ & Hch).
    rewrite Hp, Hcash, Htot in Hch. simpl in Hch.
    exists st', db', td. repeat split; try assumption. rewrite Ht. exact Htot.
Qed.

(** C3 at the scenario of the spec: one line [1000 x 2] paid with 5000. *)
Lemma checkout_cash_change_witness :
  exists st' db' td,
    handleCheckout "Kasir" "2026-01-01T00:00:00.000Z" "tx1"
      (ex_state [kopi_line 2] "Tunai" (Some 5000)) (ex_store 10) = (st', db', ToastSuccess) /\
    db_transactions db' = db_transactions (ex_store 10) ++ [td] /\
    td_total td = 2000 /\ td_changeAmount td = Some 3000.
Proof.
  apply (proj2 (checkout_cash_change "Kasir" "2026-01-01T00:00:00.000Z" "tx1")
           (ex_state [kopi_line 2] "Tunai" (Some 5000)) (ex_store 10) (kopi_line 2));
    reflexivity.
Defined.

(** C10: with a payment method other than cash, a non-empty cart always
    checks out, whatever the cash field holds, and the stored record has
    neither [cashAmount] nor [changeAmount]. *)
Theorem checkout_noncash_no_cash_fields (cashier now newId : string)
    (st : PosState) (db : Store) :
  cart st <> [] ->
  paymentMethod st <> "Tunai"%string ->
  exists st' db' td,
    handleCheckout cashier now newId st db = (st', db', ToastSuccess) /\
    db_transactions db' = db_transactions db ++ [td] /\
    td_cashAmount td = None /\ td_changeAmount td = None.
Proof.
  intros Hne Hp.
  assert (Hb : String.eqb (paymentMethod st) "Tunai"%string = false)
    by (apply String.eqb_neq; exact Hp).
  destruct (handleCheckout_passes cashier now newId st db Hne) as (st' & db' & Hok).
  { rewrite Hb. discriminate. }
  destruct (handleCheckout_success _ _ _ _ _ _ _ Hok)
    as (_ & _ & _ & td & Htx & _ & _ & Hca & Hch).
  rewrite Hb in Hca, Hch.
  exists st', db', td. repeat split; assumption.
Qed.

(** C1 at a concrete input: two units of a product with 10 in stock. *)
Lemma checkout_stock_decrement_witness :
  exists st' db',
    handleCheckout "Kasir" "2026-01-01T00:00:00.000Z" "tx1"
      (ex_state [kopi_line 2] "Tunai" (Some 5000)) (ex_store 10) = (st', db', ToastSuccess) /\
    db_stock db' !! "p1"%string = Some 8.
Proof.
  do 2 eexists. split; [reflexivity|].
  refine (proj1 (checkout_stock_decrement "Kasir" "2026-01-01T00:00:00.000Z" "tx1"
            (ex_state [kopi_line 2] "Tunai" (Some 5000)) _ (ex_store 10) _
            (kopi_line 2) 10 _ _ _ _)).
  - reflexivity.
  - simpl. constructor; [simpl; tauto | constructor].
  - simpl. left. reflexivity.
  - reflexivity.
Defined.

(** C2 at a concrete input: 1000 in cash for a 2000 cart. *)
Lemma checkout_rejected_no_write_witness :
  exists t,
    handleCheckout "Kasir" "2026-01-01T00:00:00.000Z" "tx1"
      (ex_state [kopi_line 2] "Tunai" (Some 1000)) (ex_store 10) =
    (ex_state [kopi_line 2] "Tunai" (Some 1000), ex_store 10, t) /\ t <> ToastSuccess.
Proof.
  apply checkout_rejected_no_write. right. split; [reflexivity|].
  vm_compute. reflexivity.
Defined.

(** C10 at a concrete input: non-cash payment with an empty cash field. *)
Lemma checkout_noncash_no_cash_fields_witness :
  exists st' db' td,
    handleCheckout "Kasir" "2026-01-01T00:00:00.000Z" "tx1"
      (ex_state [kopi_line 2] "Non-Tunai" None) (ex_store 10) = (st', db', ToastSuccess) /\
    db_transactions db' = db_transactions (ex_store 10) ++ [td] /\
    td_cashAmount td = None /\ td_changeAmount td = None.
Proof.
  apply checkout_noncash_no_cash_fields; simpl; discriminate.
Defined.

(** C6, as stated, fails: with 1 unit left in the store when the stock is
    re-read, a checkout of a line with quantity 2 writes stock -1. *)
Lemma checkout_negative_stock :
  exists st' db',
    handleCheckout "Kasir" "2026-01-01T00:00:00.000Z" "tx1"
      (ex_state [kopi_line 2] "Non-Tunai" None) (ex_store 1) = (st', db', ToastSuccess) /\
    db_stock db' !! "p1"%string = Some (-1).
Proof.
  do 2 eexists. split; reflexivity.
Qed.

(** C6 (amended): the stock written for a product is the re-read stock
    minus the line's quantity, with no lower bound: for a cart with one
    line per product, the persisted stock after a successful checkout is
    [s0 - q], which is non-negative exactly when the re-read stock [s0]
    was at least the line's quantity [q]. *)
Theorem checkout_stock_nonneg_iff (cashier now newId : string) (st st' : PosState)
    (db db' : Store) (item : CartItem) (s0 : Z) :
  handleCheckout cashier now newId st db = (st', db', ToastSuccess) ->
  List.NoDup (List.map ci_id (cart st)) ->
  List.In item (cart st) ->
  db_stock db !! ci_id item = Some s0 ->
  db_stock db' !! ci_id item = Some (s0 - ci_quantity item) /\
  (0 <= s0 - ci_quantity item <-> ci_quantity item <= s0).
Proof.
  intros Hok Hnd Hin Hs0.
  destruct (handleCheckout_success _ _ _ _ _ _ _ Hok) as (_ & Hstock & _).
  split; [|lia].
  rewrite Hstock, updateStock_lookup, Hs0. simpl.
  rewrite qty_for_unique by assumption. reflexivity.
Qed.

Lemma checkout_stock_nonneg_iff_witness :
  db_stock (snd (fst (handleCheckout "Kasir" "2026-01-01T00:00:00.000Z" "tx1"
    (ex_state [kopi_line 2] "Non-Tunai" None) (ex_store 1)))) !! "p1"%string = Some (1 - 2) /\
  (0 <= 1 - 2 <-> 2 <= 1).
Proof.
  refine (checkout_stock_nonneg_iff "Kasir" "2026-01-01T00:00:00.000Z" "tx1"
            (ex_state [kopi_line 2] "Non-Tunai" None) _ (ex_store 1) _
            (kopi_line 2) 1 _ _ _ _).
  - reflexivity.
  - simpl. constructor; [simpl; tauto | constructor].
  - simpl. left. reflexivity.
  - reflexivity.
Defined.

(* ================================================================== *)
(** * Cart total *)

(** C4: the total is the sum of [price * quantity] over the current
    lines; being a function of the lines alone, it is the same whichever
    sequence of cart operations produced them. *)
Theorem cartTotal_sum (c : list CartItem) :
  cartTotal c = List.fold_right (fun item acc => ci_price item * ci_quantity item + acc) 0 c.
Proof.
  unfold cartTotal.
  assert (Hgen : forall acc,
            List.fold_left (fun total item => total + ci_price item * ci_quantity item) c acc =
            acc + List.fold_right (fun item acc => ci_price item * ci_quantity item + acc) 0 c).
  { induction c as [|item rest IH]; intros acc; simpl; [lia|].
    rewrite IH. lia. }
  rewrite Hgen. lia.
Qed.

(* ================================================================== *)
(** * Cart invariant *)

Lemma NoDup_map_inj {A B} (f : A -> B) (l : list A) (x y : A) :
  List.NoDup (List.map f l) -> List.In x l -> List.In y l -> f x = f y -> x = y.
Proof.
  induction l as [|a l IH]; simpl; [contradiction|].
  intros Hnd Hx Hy Hf. inversion Hnd as [|? ? Hnotin Hnd']; subst.
  destruct Hx as [<-|Hx], Hy as [<-|Hy]; auto.
  - exfalso. apply Hnotin. rewrite Hf. apply in_map. exact Hy.
  - exfalso. apply Hnotin. rewrite <- Hf. apply in_map. exact Hx.
Qed.

Lemma NoDup_snoc {A} (l : list A) (a : A) :
  List.NoDup l -> ~ List.In a l -> List.NoDup (l ++ [a]).
Proof.
  induction l as [|b l IH]; simpl; intros Hnd Hnot.
  - constructor; [simpl; tauto | constructor].
  - inversion Hnd as [|? ? Hb Hnd']; subst. constructor.
    + rewrite in_app_iff. simpl. intros [H|[H|H]]; [tauto| |tauto].
      subst. apply Hnot. left. reflexivity.
    + apply IH; [exact Hnd'|]. intros H. apply Hnot. right. exact H.
Qed.

Lemma NoDup_map_filter {A B} (f : A -> B) (g : A -> bool) (l : list A) :
  List.NoDup (List.map f l) -> List.NoDup (List.map f (List.filter g l)).
Proof.
  induction l as [|a l IH]; simpl; intros Hnd; [constructor|].
  inversion Hnd as [|? ? Hnotin Hnd']; subst.
  destruct (g a); simpl; [|apply IH; exact Hnd'].
  constructor; [|apply IH; exact Hnd'].
  intros Hin. apply Hnotin. apply in_map_iff in Hin as (x & Hx & Hxin).
  apply List.filter_In in Hxin as [Hxin _]. rewrite <- Hx. apply in_map. exact Hxin.
Qed.

Lemma find_product (products : list Product) (p : Product) :
  List.NoDup (List.map p_id products) -> List.In p products ->
  List.find (fun q => String.eqb (p_id q) (p_id p)) products = Some p.
Proof.
  induction products as [|q rest IH]; simpl; [contradiction|].
  intros Hnd [->|Hin]; [rewrite String.eqb_refl; reflexivity|].
  inversion Hnd as [|? ? Hnotin Hnd']; subst.
  destruct (String.eqb_spec (p_id q) (p_id p)) as [He|He].
  - exfalso. apply Hnotin. rewrite He. apply in_map. exact Hin.
  - apply IH; assumption.
Qed.

(** The invariant carried along reachable carts: one line per product,
    each within its product's stock. *)
Lemma reachable_inv (products : list Product) (c : list CartItem) :
  List.NoDup (List.map p_id products) ->
  reachable products c ->
  List.NoDup (List.map ci_id c) /\ (forall item, List.In item c -> line_ok products item).
Proof.
  intros Hprod Hr. induction Hr as [| p c Hp Hr [Hnd Hok] | id change c Hr [Hnd Hok]
                                   | id c Hr [Hnd Hok]].
  - split; [constructor | simpl; tauto].
  - unfold addToCart.
    destruct (p_stock p <=? 0) eqn:Hs; [split; assumption|].
    apply Z.leb_gt in Hs.
    destruct (List.find _ c) as [ex|] eqn:Hf.
    + destruct (ci_quantity ex + 1 >? p_stock p) eqn:Hq; [split; assumption|].
      rewrite Z.gtb_ltb in Hq; apply Z.ltb_ge in Hq.
      apply List.find_some in Hf as [Hexin Hexid]. apply String.eqb_eq in Hexid.
      split.
      * rewrite List.map_map.
        erewrite List.map_ext; [exact Hnd|].
        intros a. simpl. destruct (String.eqb (ci_id a) (p_id p)); reflexivity.
      * intros item' Hin. apply in_map_iff in Hin as (item & <- & Hin).
        destruct (String.eqb_spec (ci_id item) (p_id p)) as [He|He].
        -- assert (item = ex) as -> by
             (apply (NoDup_map_inj ci_id c); [exact Hnd|exact Hin|exact Hexin|congruence]).
           destruct (Hok ex Hexin) as [H1 _].
           unfold line_ok; simpl. split; [lia|].
           exists p. repeat split; [exact Hp|congruence|lia].
        -- apply Hok. exact Hin.
    + split.
      * rewrite List.map_app. simpl. apply NoDup_snoc; [exact Hnd|].
        intros Hin. apply in_map_iff in Hin as (x & Hx & Hxin).
        pose proof (List.find_none _ _ Hf x Hxin) as Hn. simpl in Hn.
        rewrite Hx, String.eqb_refl in Hn. discriminate.
      * intros item Hin. apply in_app_iff in Hin as [Hin|[<-|[]]]; [apply Hok; exact Hin|].
        unfold line_ok; simpl. split; [lia|]. exists p. repeat split; [exact Hp|lia].
  - unfold updateQuantity. split.
    + rewrite List.map_map.
      erewrite List.map_ext; [exact Hnd|].
      intros a. simpl. destruct (String.eqb (ci_id a) id); [|reflexivity].
      destruct (_ <? 1); [reflexivity|].
      destruct (List.find _ _); [destruct (_ >? _)|]; reflexivity.
    + intros item' Hin. apply in_map_iff in Hin as (item & <- & Hin).
      destruct (Hok item Hin) as [H1 (q & Hqin & Hqid & Hqs)].
      destruct (String.eqb_spec (ci_id item) id) as [He|He]; [|apply Hok; exact Hin].
      destruct (ci_quantity item + change <? 1) eqn:Hlt; [apply Hok; exact Hin|].
      apply Z.ltb_ge in Hlt.
      destruct (List.find (fun p => String.eqb (p_id p) id) products) as [p|] eqn:Hf.
      * destruct (ci_quantity item + change >? p_stock p) eqn:Hgt; [apply Hok; exact Hin|].
        rewrite Z.gtb_ltb in Hgt; apply Z.ltb_ge in Hgt.
        apply List.find_some in Hf as [Hpin Hpid]. apply String.eqb_eq in Hpid.
        unfold line_ok; simpl. split; [lia|].
        exists p. repeat split; [exact Hpin|congruence|lia].
      * pose proof (List.find_none _ _ Hf q Hqin) as Hn. simpl in Hn.
        rewrite Hqid, He, String.eqb_refl in Hn. discriminate.
  - split.
    + apply NoDup_map_filter. exact Hnd.
    + intros item Hin. apply List.filter_In in Hin as [Hin _]. apply Hok. exact Hin.
Qed.

(** C5: with the product list fixed (document ids distinct), every line
    of a reachable cart has [1 <= quantity <= stock] of its product;
    [addToCart] leaves the cart as it is for a product out of stock or
    when one more unit would exceed the stock, and [updateQuantity] leaves
    a line as it is when the new quantity would fall outside
    [[1, stock]]. *)
Theorem cart_quantity_within_stock (products : list Product) :
  List.NoDup (List.map p_id products) ->
  (forall c, reachable products c -> forall item, List.In item c -> line_ok products item) /\
  (forall p c, p_stock p <= 0 -> addToCart p c = c) /\
  (forall p c ex,
     List.find (fun item => String.eqb (ci_id item) (p_id p)) c = Some ex ->
     p_stock p < ci_quantity ex + 1 -> addToCart p c = c) /\
  (forall id change c i item p,
     nth_error c i = Some item -> ci_id item = id ->
     List.In p products -> p_id p = id ->
     ci_quantity item + change < 1 \/ p_stock p < ci_quantity item + change ->
     nth_error (updateQuantity products id change c) i = Some item).
Proof.
  intros Hprod. split; [|split; [|split]].
  - intros c Hr. apply (reachable_inv products c Hprod Hr).
  - intros p c Hs. unfold addToCart.
    assert ((p_stock p <=? 0) = true) as -> by (apply Z.leb_le; exact Hs). reflexivity.
  - intros p c ex Hf Hlt. unfold addToCart.
    destruct (p_stock p <=? 0); [reflexivity|]. rewrite Hf.
    assert ((ci_quantity ex + 1 >? p_stock p) = true) as ->
      by (rewrite Z.gtb_ltb; apply Z.ltb_lt; exact Hlt).
    reflexivity.
  - intros id change c i item p Hi Hid Hp Hpid Hout.
    unfold updateQuantity. rewrite List.nth_error_map, Hi. simpl. f_equal.
    rewrite Hid, String.eqb_refl.
    rewrite <- Hpid, (find_product products p Hprod Hp).
    destruct Hout as [Hlt|Hgt].
    + assert ((ci_quantity item + change <? 1) = true) as -> by (apply Z.ltb_lt; exact Hlt).
      reflexivity.
    + destruct (ci_quantity item + change <? 1); [reflexivity|].
      assert ((ci_quantity item + change >? p_stock p) = true) as ->
        by (rewrite Z.gtb_ltb; apply Z.ltb_lt; exact Hgt).
      reflexivity.
Qed.

(** C5 at a concrete input: adding the single product twice. *)
Lemma cart_quantity_within_stock_witness :
  List.NoDup (List.map p_id [kopi]) /\
  (forall item, List.In item (addToCart kopi (addToCart kopi [])) -> line_ok [kopi] item).
Proof.
  assert (Hnd : List.NoDup (List.map p_id [kopi])) by (constructor; [simpl; tauto|constructor]).
  split; [exact Hnd|].
  apply (proj1 (cart_quantity_within_stock [kopi] Hnd)).
  apply reach_add; [left; reflexivity|].
  apply reach_add; [left; reflexivity|].
  apply reach_nil.
Defined.

(* ================================================================== *)
(** * Date buckets *)

Lemma startOfDay_le (t : Z) : startOfDay t <= t.
Proof.
  unfold startOfDay. pose proof (Z.mod_pos_bound t day_ms ltac:(reflexivity)). lia.
Qed.

Lemma endOfDay_bounds (t : Z) : t <= endOfDay t <= t + day_ms - 1.
Proof.
  unfold endOfDay, startOfDay.
  pose proof (Z.mod_pos_bound t day_ms ltac:(reflexivity)). lia.
Qed.

(** C7: a transaction stamped exactly at [now] passes the [today],
    [week] and [month] filters and fails the [yesterday] filter. *)
Theorem now_in_today_week_month (now : Z) :
  dateFilterPred DF_today now now = true /\
  dateFilterPred DF_week now now = true /\
  dateFilterPred DF_month now now = true /\
  dateFilterPred DF_yesterday now now = false.
Proof.
  unfold dateFilterPred, isWithinInterval, subDays.
  pose proof (startOfDay_le now) as H0.
  pose proof (startOfDay_le (now - 7 * day_ms)) as H7.
  pose proof (startOfDay_le (now - 30 * day_ms)) as H30.
  pose proof (endOfDay_bounds now) as Hend.
  pose proof (endOfDay_bounds (now - 1 * day_ms)) as Hy.
  assert (Hd : 0 < day_ms) by reflexivity.
  repeat split; apply andb_true_iff || apply andb_false_iff;
    try (split; apply Z.leb_le; lia).
  right. apply Z.leb_gt. lia.
Qed.

(* ================================================================== *)
(** * Sales aggregation *)

Module SalesRevenueReportFacts.
Import SalesRevenueReport.

Lemma aggregate_spec (docs : list Order) :
  aggregate docs =
  {| totalOrders := Z.of_nat (length docs);
     totalRevenue := List.fold_right (fun o acc => orZero (total_price o) + acc) 0 docs |}.
Proof.
  unfold aggregate.
  assert (Hgen : forall n r,
    List.fold_left (fun acc order =>
      {| totalOrders := totalOrders acc + 1;
         totalRevenue := totalRevenue acc + orZero (total_price order) |})
      docs {| totalOrders := n; totalRevenue := r |} =
    {| totalOrders := n + Z.of_nat (length docs);
       totalRevenue := r + List.fold_right (fun o acc => orZero (total_price o) + acc) 0 docs |}).
  { induction docs as [|o rest IH]; intros n r; simpl.
    - f_equal; lia.
    - rewrite IH. f_equal; lia. }
  rewrite Hgen. reflexivity.
Qed.

Lemma chartLoop_some (months : list (string * option (list Order) * (Z * Z)))
    (cs : list ChartData) :
  chartLoop months = Some cs ->
  length cs = length months /\
  (forall i monthName docs rnd, nth_error months i = Some (monthName, Some docs, rnd) ->
     nth_error cs i = Some (chartEntry monthName docs rnd)).
Proof.
  revert cs. induction months as [|[[n [docs|]] rnd] rest IH]; simpl; intros cs H.
  - injection H as <-. split; [reflexivity|]. intros [|i]; discriminate.
  - destruct (chartLoop rest) as [cs'|] eqn:Hr; [|discriminate].
    injection H as <-. destruct (IH cs' eq_refl) as [Hlen Hnth].
    split; [simpl; congruence|].
    intros [|i] monthName docs' rnd' Hi; simpl in *.
    + injection Hi as -> -> ->. reflexivity.
    + apply Hnth. exact Hi.
  - discriminate.
Qed.

Lemma chartLoop_total (months : list (string * option (list Order) * (Z * Z))) :
  (forall m, List.In m months -> snd (fst m) <> None) ->
  exists cs, chartLoop months = Some cs.
Proof.
  induction months as [|[[n [docs|]] rnd] rest IH]; simpl; intros Hall.
  - eexists. reflexivity.
  - destruct IH as [cs Hcs]; [intros m Hm; apply Hall; right; exact Hm|].
    rewrite Hcs. eexists. reflexivity.
  - exfalso. apply (Hall _ (or_introl eq_refl)). reflexivity.
Qed.

Lemma chartLoop_fail (months : list (string * option (list Order) * (Z * Z))) :
  (exists m, List.In m months /\ snd (fst m) = None) -> chartLoop months = None.
Proof.
  intros (m & Hm & Hn). induction months as [|[[n [docs|]] rnd] rest IH]; simpl in *.
  - contradiction.
  - destruct Hm as [<-|Hm]; [discriminate|]. rewrite (IH Hm). reflexivity.
  - reflexivity.
Qed.

End SalesRevenueReportFacts.

(** C8, as stated, fails: a month for which no order is fetched is
    charted with the random placeholder [Math.floor(Math.random()*50)+5]
    orders (here with both draws 0: 5 orders, revenue 50000), not with the
    count 0 and sum 0 of its fetched orders. *)
Lemma chart_empty_month_placeholder :
  SalesRevenueReport.aggregate [] = SalesRevenueReport.mkMonthlySales 0 0 /\
  nth_error
    (SalesRevenueReport.fetchChartData
       [("Mei"%string, Some [], (0, 0)); ("Jun"%string, Some [mkOrder (Some 1000) None], (0, 0));
        ("Jul"%string, Some [mkOrder (Some 1000) None], (0, 0));
        ("Agu"%string, Some [mkOrder (Some 1000) None], (0, 0));
        ("Sep"%string, Some [mkOrder (Some 1000) None], (0, 0));
        ("Okt"%string, Some [mkOrder (Some 1000) None], (0, 0))] [])
    0 = Some (SalesRevenueReport.mkChartData "Mei" 5 50000).
Proof.
  split; reflexivity.
Qed.

(** C8 (amended): when a month's fetch succeeds, the monthly aggregation
    is exactly the count of the fetched orders and the sum of their
    [total_price] (missing as 0).  When the six chart fetches succeed, the
    chart has one entry per month, computed from that month's orders
    alone, except that a month with no fetched order is charted with the
    random placeholders [r1 + 5] orders and [r2 + 50000] revenue.  A failed
    chart fetch replaces the whole series with placeholders, and a failed
    monthly fetch on an empty previous state yields the placeholders
    [r1 + 10] and [r2 + 100000]. *)
Theorem sales_aggregation_from_orders :
  (forall prev docs rnd,
     SalesRevenueReport.fetchMonthlyData prev (Some docs) rnd =
     SalesRevenueReport.mkMonthlySales (Z.of_nat (length docs))
       (List.fold_right (fun o acc => orZero (total_price o) + acc) 0 docs)) /\
  (forall months dummy,
     (forall m, List.In m months -> snd (fst m) <> None) ->
     length (SalesRevenueReport.fetchChartData months dummy) = length months /\
     (forall i monthName docs rnd,
        nth_error months i = Some (monthName, Some docs, rnd) ->
        nth_error (SalesRevenueReport.fetchChartData months dummy) i =
        Some (match docs with
              | [] => SalesRevenueReport.mkChartData monthName (fst rnd + 5) (snd rnd + 50000)
              | _ => SalesRevenueReport.mkChartData monthName (Z.of_nat (length docs))
                       (List.fold_right (fun o acc => orZero (total_price o) + acc) 0 docs)
              end))) /\
  (forall months dummy,
     (exists m, List.In m months /\ snd (fst m) = None) ->
     SalesRevenueReport.fetchChartData months dummy =
     List.map (fun '(monthName, rnd) =>
       SalesRevenueReport.mkChartData monthName (fst rnd + 5) (snd rnd + 50000)) dummy) /\
  (forall prev rnd,
     SalesRevenueReport.totalOrders prev = 0 ->
     SalesRevenueReport.fetchMonthlyData prev None rnd =
     SalesRevenueReport.mkMonthlySales (fst rnd + 10) (snd rnd + 100000)).
Proof.
  split; [|split; [|split]].
  - intros prev docs rnd. apply SalesRevenueReportFacts.aggregate_spec.
  - intros months dummy Hall.
    destruct (SalesRevenueReportFacts.chartLoop_total months Hall) as [cs Hcs].
    destruct (SalesRevenueReportFacts.chartLoop_some months cs Hcs) as [Hlen Hnth].
    unfold SalesRevenueReport.fetchChartData. rewrite Hcs. split; [exact Hlen|].
    intros i monthName docs rnd Hi. rewrite (Hnth _ _ _ _ Hi). f_equal.
    unfold SalesRevenueReport.chartEntry.
    rewrite SalesRevenueReportFacts.aggregate_spec. simpl.
    destruct docs as [|o rest]; [reflexivity|].
    simpl length. rewrite Nat2Z.inj_succ.
    destruct (Z.succ _ =? 0) eqn:H0; [apply Z.eqb_eq in H0; lia|reflexivity].
  - intros months dummy Hfail. unfold SalesRevenueReport.fetchChartData.
    rewrite (SalesRevenueReportFacts.chartLoop_fail months Hfail). reflexivity.
  - intros prev rnd H0. simpl. rewrite H0. reflexivity.
Qed.

Lemma sales_aggregation_from_orders_witness :
  length (SalesRevenueReport.fetchChartData
            [("Mei"%string, Some [], (7, 8)); ("Jun"%string, Some [mkOrder (Some 1000) None], (0, 0))]
            []) = 2%nat /\
  nth_error (SalesRevenueReport.fetchChartData
            [("Mei"%string, Some [], (7, 8)); ("Jun"%string, Some [mkOrder (Some 1000) None], (0, 0))]
            []) 1 = Some (SalesRevenueReport.mkChartData "Jun" 1 1000).
Proof.
  destruct (proj1 (proj2 sales_aggregation_from_orders)
              [("Mei"%string, Some [], (7, 8)); ("Jun"%string, Some [mkOrder (Some 1000) None], (0, 0))]
              [])
    as [Hlen Hnth].
  { intros m [<-|[<-|[]]]; discriminate. }
  split; [exact Hlen|].
  exact (Hnth 1%nat "Jun"%string [mkOrder (Some 1000) None] (0, 0) eq_refl).
Defined.

(* ================================================================== *)
(** * Profit estimator *)

Module FinancialDashboardFacts.
Import FinancialDashboard.

Lemma sums_spec (docs : list Order) :
  sums docs =
  (List.fold_right (fun o acc => orZero (total_price o) + acc) 0 docs,
   List.fold_right (fun o acc => orZero (shipping_fee o) + acc) 0 docs).
Proof.
  unfold sums.
  assert (Hgen : forall r s,
    List.fold_left (fun '(totalRevenue, totalShippingFees) order =>
      (totalRevenue + orZero (total_price order),
       totalShippingFees + orZero (shipping_fee order))) docs (r, s) =
    (r + List.fold_right (fun o acc => orZero (total_price o) + acc) 0 docs,
     s + List.fold_right (fun o acc => orZero (shipping_fee o) + acc) 0 docs)).
  { induction docs as [|o rest IH]; intros r s; simpl.
    - f_equal; lia.
    - rewrite IH. f_equal; lia. }
  rewrite Hgen. reflexivity.
Qed.

Lemma fin_chartLoop_total (months : list (string * option (list Order))) :
  (forall m, List.In m months -> snd m <> None) ->
  length (fetchChartData [] months) = length months /\
  (forall i monthName docs, nth_error months i = Some (monthName, Some docs) ->
     forall prev, nth_error (fetchChartData prev months) i = Some (chartEntry monthName docs)).
Proof.
  intros Hall.
  assert (H : exists cs, chartLoop months = Some cs /\ length cs = length months /\
                (forall i monthName docs, nth_error months i = Some (monthName, Some docs) ->
                   nth_error cs i = Some (chartEntry monthName docs))).
  { induction months as [|[n [docs|]] rest IH]; simpl.
    - exists []. split; [reflexivity|]. split; [reflexivity|]. intros [|i]; discriminate.
    - destruct IH as (cs & Hcs & Hlen & Hnth); [intros m Hm; apply Hall; right; exact Hm|].
      rewrite Hcs. eexists. split; [reflexivity|]. split; [simpl; congruence|].
      intros [|i] monthName docs' Hi; simpl in *.
      + injection Hi as -> ->. reflexivity.
      + apply Hnth. exact Hi.
    - exfalso. apply (Hall _ (or_introl eq_refl)). reflexivity. }
  destruct H as (cs & Hcs & Hlen & Hnth). unfold fetchChartData. rewrite Hcs.
  split; [exact Hlen|]. intros i monthName docs Hi prev. apply Hnth. exact Hi.
Qed.

End FinancialDashboardFacts.

(** C9: for the selected month and for every month of the chart, the
    dashboard sets [productCost = (revenue - shippingFees) * 0.5],
    [grossProfit = revenue - productCost] and
    [netProfit = grossProfit - 50000], with revenue and shipping fees the
    sums of [total_price] and [shipping_fee] (missing as 0) over the
    month's orders. *)
Theorem financial_estimates :
  (forall prev docs,
     let f := FinancialDashboard.fetchMonthlyData prev (Some docs) in
     let productCost := ((FinancialDashboard.revenue f - FinancialDashboard.shippingFees f)
                         * (1 # 2))%Q in
     FinancialDashboard.revenue f =
       inject_Z (List.fold_right (fun o acc => orZero (total_price o) + acc) 0 docs) /\
     FinancialDashboard.shippingFees f =
       inject_Z (List.fold_right (fun o acc => orZero (shipping_fee o) + acc) 0 docs) /\
     FinancialDashboard.grossProfit f = (FinancialDashboard.revenue f - productCost)%Q /\
     FinancialDashboard.expenses f = inject_Z 50000 /\
     FinancialDashboard.netProfit f = (FinancialDashboard.grossProfit f - inject_Z 50000)%Q) /\
  (forall prev months,
     (forall m, List.In m months -> snd m <> None) ->
     forall i monthName docs,
       nth_error months i = Some (monthName, Some docs) ->
       exists e,
         nth_error (FinancialDashboard.fetchChartData prev months) i = Some e /\
         let productCost := ((FinancialDashboard.c_revenue e -
                              FinancialDashboard.c_shippingFees e) * (1 # 2))%Q in
         FinancialDashboard.c_revenue e =
           inject_Z (List.fold_right (fun o acc => orZero (total_price o) + acc) 0 docs) /\
         FinancialDashboard.c_shippingFees e =
           inject_Z (List.fold_right (fun o acc => orZero (shipping_fee o) + acc) 0 docs) /\
         FinancialDashboard.c_grossProfit e = (FinancialDashboard.c_revenue e - productCost)%Q /\
         FinancialDashboard.c_netProfit e =
           (FinancialDashboard.c_grossProfit e - inject_Z 50000)%Q).
Proof.
  split.
  - intros prev docs. simpl. rewrite FinancialDashboardFacts.sums_spec.
    repeat split; reflexivity.
  - intros prev months Hall i monthName docs Hi.
    destruct (FinancialDashboardFacts.fin_chartLoop_total months Hall) as [_ Hnth].
    eexists. split; [exact (Hnth i monthName docs Hi prev)|].
    unfold FinancialDashboard.chartEntry. rewrite FinancialDashboardFacts.sums_spec.
    simpl. repeat split; reflexivity.
Qed.

Lemma financial_estimates_witness :
  exists e,
    nth_error (FinancialDashboard.fetchChartData []
                 [("Sep"%string, Some [mkOrder (Some 120000) (Some 20000)])]) 0 = Some e /\
    FinancialDashboard.c_grossProfit e == 70000 # 1 /\
    FinancialDashboard.c_netProfit e == 20000 # 1.
Proof.
  destruct (proj2 financial_estimates [] [("Sep"%string, Some [mkOrder (Some 120000) (Some 20000)])]
              ltac:(intros m [<-|[]]; discriminate) 0%nat "Sep"%string
              [mkOrder (Some 120000) (Some 20000)] eq_refl)
    as (e & He & Hrev & Hship & Hgross & Hnet).
  exists e. split; [exact He|].
  rewrite Hnet, Hgross, Hship, Hrev. split; vm_compute; reflexivity.
Defined.

(* ================================================================== *)
(** * Further properties of the POS page *)

Lemma qty_for_notin (k : string) (items : list CartItem) :
  ~ List.In k (List.map ci_id items) -> qty_for k items = 0.
Proof.
  induction items as [|item rest IH]; simpl; intros Hn; [reflexivity|].
  destruct (String.eqb_spec (ci_id item) k) as [He|He]; [tauto|].
  rewrite IH; [reflexivity|tauto].
Qed.

(** A successful checkout never creates or deletes a product document,
    and leaves the stock of every product without a cart line as it
    was. *)
Theorem checkout_keeps_other_products (cashier now newId : string)
    (st st' : PosState) (db db' : Store) :
  handleCheckout cashier now newId st db = (st', db', ToastSuccess) ->
  forall k,
    (is_Some (db_stock db' !! k) <-> is_Some (db_stock db !! k)) /\
    (~ List.In k (List.map ci_id (cart st)) -> db_stock db' !! k = db_stock db !! k).
Proof.
  intros Hok k.
  destruct (handleCheckout_success _ _ _ _ _ _ _ Hok) as (_ & Hstock & _).
  rewrite Hstock, updateStock_lookup. split.
  - destruct (db_stock db !! k); simpl;
      [split; intros _; eexists; reflexivity | split; intros [x Hx]; discriminate].
  - intros Hn. rewrite qty_for_notin by exact Hn.
    destruct (db_stock db !! k); simpl; [f_equal; lia|reflexivity].
Qed.

Lemma checkout_keeps_other_products_witness :
  exists st' db',
    handleCheckout "Kasir" "2026-01-01T00:00:00.000Z" "tx1"
      (ex_state [kopi_line 2] "Tunai" (Some 5000)) (ex_store 10) = (st', db', ToastSuccess) /\
    (is_Some (db_stock db' !! "p2"%string) <-> is_Some (db_stock (ex_store 10) !! "p2"%string)).
Proof.
  do 2 eexists. split; [reflexivity|].
  refine (proj1 (checkout_keeps_other_products "Kasir" "2026-01-01T00:00:00.000Z" "tx1"
                   (ex_state [kopi_line 2] "Tunai" (Some 5000)) _ (ex_store 10) _ _ "p2")).
  reflexivity.
Defined.

(** Sum of the lines, written right to left. *)
Lemma cartTotal_fold_right (c : list CartItem) :
  cartTotal c = List.fold_right (fun item acc => ci_price item * ci_quantity item + acc) 0 c.
Proof.
  unfold cartTotal.
  assert (Hgen : forall acc,
            List.fold_left (fun total item => total + ci_price item * ci_quantity item) c acc =
            acc + List.fold_right (fun item acc => ci_price item * ci_quantity item + acc) 0 c).
  { induction c as [|item rest IH]; intros acc; simpl; [lia|]. rewrite IH. lia. }
  rewrite Hgen. lia.
Qed.

(** Changing one line of a cart with one line per product changes the
    total by the difference of that line's contributions. *)
Lemma cartTotal_map_single (c : list CartItem) (x : CartItem) (g : CartItem -> CartItem) :
  List.NoDup (List.map ci_id c) -> List.In x c ->
  (forall y, List.In y c -> ci_id y <> ci_id x -> g y = y) ->
  cartTotal (List.map g c) =
  cartTotal c - ci_price x * ci_quantity x + ci_price (g x) * ci_quantity (g x).
Proof.
  rewrite !cartTotal_fold_right.
  induction c as [|a rest IH]; simpl; intros Hnd Hin Hg; [contradiction|].
  inversion Hnd as [|? ? Hnotin Hnd']; subst.
  destruct Hin as [<-|Hin].
  - assert (Hrest : List.map g rest = rest).
    { rewrite <- (List.map_id rest) at 2. apply List.map_ext_in.
      intros y Hy. apply Hg; [right; exact Hy|].
      intros He. apply Hnotin. rewrite <- He. apply in_map. exact Hy. }
    rewrite Hrest. lia.
  - assert (Hga : g a = a).
    { apply Hg; [left; reflexivity|]. intros He. apply Hnotin. rewrite He.
      apply in_map. exact Hin. }
    rewrite Hga, IH; [lia|exact Hnd'|exact Hin|].
    intros y Hy Hne. apply Hg; [right; exact Hy|exact Hne].
Qed.

(** Removing the line of a product lowers the total by exactly that
    line's [price * quantity]; removing an id with no line leaves the
    cart as it is. *)
Theorem removeFromCart_total (c : list CartItem) :
  List.NoDup (List.map ci_id c) ->
  (forall item, List.In item c ->
     cartTotal (removeFromCart (ci_id item) c) =
     cartTotal c - ci_price item * ci_quantity item) /\
  (forall id, ~ List.In id (List.map ci_id c) -> removeFromCart id c = c).
Proof.
  intros Hnd. split.
  - intros item Hin. unfold removeFromCart. rewrite !cartTotal_fold_right.
    induction c as [|a rest IH]; simpl in *; [contradiction|].
    inversion Hnd as [|? ? Hnotin Hnd']; subst.
    destruct Hin as [<-|Hin].
    + rewrite String.eqb_refl. simpl.
      assert (Hkeep : List.filter (fun x => negb (String.eqb (ci_id x) (ci_id a))) rest = rest).
      { clear IH Hnd Hnd'. induction rest as [|b rest' IHr]; simpl in *; [reflexivity|].
        destruct (String.eqb_spec (ci_id b) (ci_id a)) as [He|He].
        - exfalso. apply Hnotin. left. exact He.
        - simpl. rewrite IHr; [reflexivity|tauto]. }
      rewrite Hkeep. lia.
    + destruct (String.eqb_spec (ci_id a) (ci_id item)) as [He|He].
      * exfalso. apply Hnotin. rewrite He. apply in_map. exact Hin.
      * simpl. rewrite IH; [lia|exact Hnd'|exact Hin].
  - intros id Hn. unfold removeFromCart.
    induction c as [|a rest IH]; simpl in *; [reflexivity|].
    inversion Hnd as [|? ? Hnotin Hnd']; subst.
    destruct (String.eqb_spec (ci_id a) id) as [He|He]; [tauto|].
    simpl. rewrite IH; [reflexivity|exact Hnd'|tauto].
Qed.

Lemma removeFromCart_total_witness :
  List.NoDup (List.map ci_id [kopi_line 2]) /\
  cartTotal (removeFromCart "p1" [kopi_line 2]) = cartTotal [kopi_line 2] - 1000 * 2.
Proof.
  assert (Hnd : List.NoDup (List.map ci_id [kopi_line 2]))
    by (constructor; [simpl; tauto|constructor]).
  split; [exact Hnd|].
  exact (proj1 (removeFromCart_total [kopi_line 2] Hnd) (kopi_line 2) (or_introl eq_refl)).
Defined.

(** When [addToCart] accepts a product, the total grows by exactly one
    unit price: the product's price for a new line, the existing line's
    price when its quantity is incremented. *)
Theorem addToCart_total (p : Product) (c : list CartItem) :
  List.NoDup (List.map ci_id c) -> 0 < p_stock p ->
  (List.find (fun item => String.eqb (ci_id item) (p_id p)) c = None ->
   cartTotal (addToCart p c) = cartTotal c + p_price p) /\
  (forall ex, List.find (fun item => String.eqb (ci_id item) (p_id p)) c = Some ex ->
   ci_quantity ex + 1 <= p_stock p ->
   cartTotal (addToCart p c) = cartTotal c + ci_price ex).
Proof.
  intros Hnd Hs. unfold addToCart.
  assert (Hs' : (p_stock p <=? 0) = false) by (apply Z.leb_gt; exact Hs).
  rewrite Hs'. split.
  - intros Hf. rewrite Hf. unfold cartTotal. rewrite List.fold_left_app. simpl. lia.
  - intros ex Hf Hq. rewrite Hf.
    assert (Hq' : (ci_quantity ex + 1 >? p_stock p) = false)
      by (rewrite Z.gtb_ltb; apply Z.ltb_ge; exact Hq).
    rewrite Hq'.
    apply List.find_some in Hf as [Hexin Hexid]. apply String.eqb_eq in Hexid.
    rewrite (cartTotal_map_single c ex); [|exact Hnd|exact Hexin|].
    + rewrite Hexid, String.eqb_refl. simpl. lia.
    + intros y _ Hne. rewrite Hexid in Hne.
      apply String.eqb_neq in Hne. rewrite Hne. reflexivity.
Qed.

Lemma addToCart_total_witness :
  List.NoDup (List.map ci_id [kopi_line 2]) /\ 0 < p_stock kopi /\
  cartTotal (addToCart kopi [kopi_line 2]) = cartTotal [kopi_line 2] + 1000.
Proof.
  assert (Hnd : List.NoDup (List.map ci_id [kopi_line 2]))
    by (constructor; [simpl; tauto|constructor]).
  assert (Hs : 0 < p_stock kopi) by reflexivity.
  split; [exact Hnd|]. split; [exact Hs|].
  apply (proj2 (addToCart_total kopi [kopi_line 2] Hnd Hs) (kopi_line 2));
    [reflexivity | simpl; lia].
Defined.

(** [updateQuantity] on the line of a product changes the total by
    [price * change] when the new quantity is accepted (at least 1 and,
    when the product is found, at most its stock), and not at all
    otherwise. *)
Theorem updateQuantity_total (products : list Product) (c : list CartItem)
    (item : CartItem) (change : Z) :
  List.NoDup (List.map ci_id c) -> List.In item c ->
  cartTotal (updateQuantity products (ci_id item) change c) =
  cartTotal c +
  (if (1 <=? ci_quantity item + change) &&
      match List.find (fun p => String.eqb (p_id p) (ci_id item)) products with
      | Some p => ci_quantity item + change <=? p_stock p
      | None => true
      end
   then ci_price item * change else 0).
Proof.
  intros Hnd Hin. unfold updateQuantity.
  rewrite (cartTotal_map_single c item); [|exact Hnd|exact Hin|].
  - rewrite String.eqb_refl.
    destruct (ci_quantity item + change <? 1) eqn:Hlt.
    + apply Z.ltb_lt in Hlt.
      assert (H1 : (1 <=? ci_quantity item + change) = false) by (apply Z.leb_gt; lia).
      rewrite H1. simpl. lia.
    + apply Z.ltb_ge in Hlt.
      assert (H1 : (1 <=? ci_quantity item + change) = true) by (apply Z.leb_le; lia).
      rewrite H1. simpl.
      destruct (List.find _ products) as [p|].
      * destruct (ci_quantity item + change >? p_stock p) eqn:Hgt.
        -- rewrite Z.gtb_ltb in Hgt. apply Z.ltb_lt in Hgt.
           assert (H2 : (ci_quantity item + change <=? p_stock p) = false)
             by (apply Z.leb_gt; lia).
           rewrite H2. lia.
        -- rewrite Z.gtb_ltb in Hgt. apply Z.ltb_ge in Hgt.
           assert (H2 : (ci_quantity item + change <=? p_stock p) = true)
             by (apply Z.leb_le; lia).
           rewrite H2. simpl. lia.
      * simpl. lia.
  - intros y _ Hne. apply String.eqb_neq in Hne. rewrite Hne. reflexivity.
Qed.

Lemma updateQuantity_total_witness :
  List.NoDup (List.map ci_id [kopi_line 2]) /\
  cartTotal (updateQuantity [kopi] "p1" 3 [kopi_line 2]) = cartTotal [kopi_line 2] + 3000.
Proof.
  assert (Hnd : List.NoDup (List.map ci_id [kopi_line 2]))
    by (constructor; [simpl; tauto|constructor]).
  split; [exact Hnd|].
  exact (updateQuantity_total [kopi] [kopi_line 2] (kopi_line 2) 3 Hnd (or_introl eq_refl)).
Defined.

(** Carts built by the three operations hold at most one line per
    product id. *)
Theorem reachable_one_line_per_product (products : list Product) (c : list CartItem) :
  List.NoDup (List.map p_id products) ->
  reachable products c -> List.NoDup (List.map ci_id c).
Proof.
  intros Hp Hr. exact (proj1 (reachable_inv products c Hp Hr)).
Qed.

Lemma reachable_one_line_per_product_witness :
  List.NoDup (List.map ci_id (addToCart kopi (addToCart kopi []))).
Proof.
  apply (reachable_one_line_per_product [kopi]).
  - constructor; [simpl; tauto|constructor].
  - apply reach_add; [left; reflexivity|]. apply reach_add; [left; reflexivity|].
    apply reach_nil.
Defined.

(* ================================================================== *)
(** * Further properties of the transaction history *)

Lemma startOfDay_spec (t : Z) :
  startOfDay t = day_ms * (t / day_ms) /\ day_ms * (t / day_ms) <= t < day_ms * (t / day_ms) + day_ms.
Proof.
  unfold startOfDay. pose proof (Z.div_mod t day_ms ltac:(discriminate)).
  pose proof (Z.mod_pos_bound t day_ms ltac:(reflexivity)). lia.
Qed.

Ltac day_facts :=
  repeat match goal with
  | |- context [startOfDay ?x] =>
      let H := fresh "Hd" in
      destruct (startOfDay_spec x) as [H ?]; rewrite H; clear H
  end.

(** The date buckets are whole calendar days: ['today'] is the day of
    [now], ['yesterday'] the day before, ['week'] the eight days from
    seven days ago to today and ['month'] the thirty-one days from thirty
    days ago to today (days counted by [startOfDay]); so ['today'] and
    ['yesterday'] never overlap. *)
Theorem date_buckets_days (now t : Z) :
  (dateFilterPred DF_today now t = true <-> startOfDay t = startOfDay now) /\
  (dateFilterPred DF_yesterday now t = true <-> startOfDay t = startOfDay now - day_ms) /\
  (dateFilterPred DF_week now t = true <->
     startOfDay now - 7 * day_ms <= startOfDay t <= startOfDay now) /\
  (dateFilterPred DF_month now t = true <->
     startOfDay now - 30 * day_ms <= startOfDay t <= startOfDay now) /\
  (dateFilterPred DF_today now t && dateFilterPred DF_yesterday now t = false).
Proof.
  unfold dateFilterPred, isWithinInterval, endOfDay, subDays.
  day_facts. unfold day_ms in *.
  repeat split; intros;
    repeat match goal with
    | H : _ && _ = true |- _ => apply andb_true_iff in H as [? ?]
    | H : (_ <=? _) = true |- _ => apply Z.leb_le in H
    | |- _ && _ = true => apply andb_true_iff; split
    | |- (_ <=? _) = true => apply Z.leb_le
    end; try lia.
Qed.

Lemma startsWith_refl (s : string) : startsWith s s = true.
Proof.
  induction s as [|c s IH]; simpl; [reflexivity|]. rewrite Ascii.eqb_refl. exact IH.
Qed.

Lemma includes_refl (s : string) : includes s s = true.
Proof. destruct s; simpl; [reflexivity|]. rewrite Ascii.eqb_refl, startsWith_refl. reflexivity. Qed.

Lemma includes_empty (s : string) : includes s "" = true.
Proof. destruct s; reflexivity. Qed.

Lemma filter_incl {A} (f : A -> bool) (l : list A) (x : A) :
  List.In x (List.filter f l) -> List.In x l.
Proof. intros H. apply List.filter_In in H. tauto. Qed.

(** The history list: with an empty search and the ['all'] bucket it is
    the whole list; every transaction shown is in the list and in the
    selected date bucket; and searching for a transaction's id, or for
    its cashier's name, always shows it when its date is in the
    bucket. *)
Theorem filterTransactions_search (f : DateFilter) (now : Z) (l : list HistoryTransaction) :
  filterTransactions "" DF_all now l = l /\
  (forall term t, List.In t (filterTransactions term f now l) ->
     List.In t l /\ dateFilterPred f now (h_timestamp t) = true) /\
  (forall t, List.In t l -> dateFilterPred f now (h_timestamp t) = true ->
     List.In t (filterTransactions (h_id t) f now l) /\
     List.In t (filterTransactions (h_cashierName t) f now l)).
Proof.
  split; [reflexivity|]. split.
  - intros term t Hin. unfold filterTransactions in Hin.
    destruct f; simpl in Hin |- *;
      first [ split; [|reflexivity];
              destruct (String.eqb term ""); [exact Hin|exact (filter_incl _ _ _ Hin)]
            | apply List.filter_In in Hin as [Hin Hp]; split; [|exact Hp];
              destruct (String.eqb term ""); [exact Hin|exact (filter_incl _ _ _ Hin)] ].
  - intros t Hin Hdate.
    assert (Hm : forall term, searchMatch term t = true ->
              List.In t (filterTransactions term f now l)).
    { intros term Hmatch. unfold filterTransactions.
      assert (Hf : List.In t (if String.eqb term "" then l
                               else List.filter (searchMatch term) l)).
      { destruct (String.eqb term ""); [exact Hin|]. apply List.filter_In. tauto. }
      destruct f; try exact Hf; apply List.filter_In; tauto. }
    split; apply Hm; unfold searchMatch; rewrite includes_refl;
      rewrite ?orb_true_r; reflexivity.
Qed.

Lemma filterTransactions_search_witness :
  let t := mkHistoryTransaction "tx1" None "Kasir" 0 in
  dateFilterPred DF_today 5 (h_timestamp t) = true /\
  List.In t (filterTransactions "tx1" DF_today 5 [t]).
Proof.
  intros t. assert (Hd : dateFilterPred DF_today 5 (h_timestamp t) = true) by reflexivity.
  split; [exact Hd|].
  exact (proj1 (proj2 (proj2 (filterTransactions_search DF_today 5 [t])) t
                  (or_introl eq_refl) Hd)).
Defined.

(** The product grid of the POS page: whatever the search term, it shows
    only products of the list, and searching for a product's exact name
    shows it (when the trimmed term is empty every product is shown, so
    this holds whatever [trim] strips). *)
Theorem filterProducts_search (trim : string -> string) (ps : list Product) :
  (forall s p, List.In p (filterProducts trim s ps) -> List.In p ps) /\
  (forall p, List.In p ps -> List.In p (filterProducts trim (p_name p) ps)).
Proof.
  split.
  - intros s p Hin. unfold filterProducts in Hin.
    destruct (String.eqb (trim s) ""); [exact Hin|exact (filter_incl _ _ _ Hin)].
  - intros p Hin. unfold filterProducts.
    destruct (String.eqb (trim (p_name p)) ""); [exact Hin|].
    apply List.filter_In. split; [exact Hin|]. rewrite includes_refl. reflexivity.
Qed.

Lemma filterProducts_search_witness :
  List.In kopi (filterProducts (fun s => s) "Kopi" [kopi]).
Proof.
  exact (proj2 (filterProducts_search (fun s => s) [kopi]) kopi (or_introl eq_refl)).
Defined.

(* ================================================================== *)
(** * Further properties of the reports *)

(** Month navigation never passes the month the page was opened in: the
    next button is disabled exactly there. *)
Theorem navigation_clamped (nowMonth m : Z) :
  navReachable nowMonth m -> m <= nowMonth /\ (nextDisabled m nowMonth = true <-> m = nowMonth).
Proof.
  intros Hr. split.
  - induction Hr as [|m Hr IH|m Hr IH Hd]; unfold goToPreviousMonth, goToNextMonth in *.
    + lia.
    + lia.
    + unfold nextDisabled in Hd. apply Z.eqb_neq in Hd. lia.
  - unfold nextDisabled. apply Z.eqb_eq.
Qed.

Lemma navigation_clamped_witness :
  navReachable 24312 (goToNextMonth (goToPreviousMonth 24312)) /\
  goToNextMonth (goToPreviousMonth 24312) <= 24312.
Proof.
  assert (Hr : navReachable 24312 (goToNextMonth (goToPreviousMonth 24312))).
  { apply nav_next; [apply nav_prev, nav_start | reflexivity]. }
  split; [exact Hr|]. exact (proj1 (navigation_clamped 24312 _ Hr)).
Defined.

(** The second [SalesRevenueReport] component charts, when all six
    fetches succeed, exactly each month's order count and revenue sum,
    an order-less month included as [0, 0]; one failed fetch empties the
    chart, and a failed monthly fetch keeps the previous figures. *)
Theorem report2_chart_exact (months : list (string * option (list Order))) :
  ((forall m, List.In m months -> snd m <> None) ->
   length (SalesRevenueReport2.fetchChartData months) = length months /\
   forall i monthName docs,
     nth_error months i = Some (monthName, Some docs) ->
     nth_error (SalesRevenueReport2.fetchChartData months) i =
     Some (SalesRevenueReport.mkChartData monthName (Z.of_nat (length docs))
             (List.fold_right (fun o acc => orZero (total_price o) + acc) 0 docs))) /\
  ((exists m, List.In m months /\ snd m = None) ->
   SalesRevenueReport2.fetchChartData months = []) /\
  (forall prev, SalesRevenueReport2.fetchMonthlyData prev None = prev).
Proof.
  split; [|split; [|reflexivity]].
  - intros Hall.
    assert (H : exists cs, SalesRevenueReport2.chartLoop months = Some cs /\
                  length cs = length months /\
                  (forall i monthName docs, nth_error months i = Some (monthName, Some docs) ->
                     nth_error cs i = Some (SalesRevenueReport2.chartEntry monthName docs))).
    { induction months as [|[n [docs|]] rest IH]; simpl.
      - exists []. split; [reflexivity|]. split; [reflexivity|]. intros [|i]; discriminate.
      - destruct IH as (cs & Hcs & Hlen & Hnth); [intros m Hm; apply Hall; right; exact Hm|].
        rewrite Hcs. eexists. split; [reflexivity|]. split; [simpl; congruence|].
        intros [|i] monthName docs' Hi; simpl in *.
        + injection Hi as -> ->. reflexivity.
        + apply Hnth. exact Hi.
      - exfalso. apply (Hall _ (or_introl eq_refl)). reflexivity. }
    destruct H as (cs & Hcs & Hlen & Hnth).
    unfold SalesRevenueReport2.fetchChartData. rewrite Hcs. split; [exact Hlen|].
    intros i monthName docs Hi. rewrite (Hnth _ _ _ Hi).
    unfold SalesRevenueReport2.chartEntry. rewrite SalesRevenueReportFacts.aggregate_spec.
    reflexivity.
  - intros (m & Hm & Hn). unfold SalesRevenueReport2.fetchChartData.
    assert (H : SalesRevenueReport2.chartLoop months = None).
    { induction months as [|[n [docs|]] rest IH]; simpl in *.
      - contradiction.
      - destruct Hm as [<-|Hm]; [discriminate|]. rewrite (IH Hm). reflexivity.
      - reflexivity. }
    rewrite H. reflexivity.
Qed.

Lemma report2_chart_exact_witness :
  nth_error (SalesRevenueReport2.fetchChartData [("Mei"%string, Some [])]) 0 =
  Some (SalesRevenueReport.mkChartData "Mei" 0 0).
Proof.
  destruct (proj1 (report2_chart_exact [("Mei"%string, Some [])])) as [_ Hnth].
  { intros m [<-|[]]. discriminate. }
  exact (Hnth 0%nat "Mei"%string [] eq_refl).
Defined.

(** The transactions tab of the second report: an empty search keeps
    every row, every row shown is from the list, and searching for a
    row's id or buyer name shows it. *)
Theorem report2_search (rows : list SalesRevenueReport2.TxRow) :
  SalesRevenueReport2.filteredTransactions "" rows = rows /\
  (forall term r, List.In r (SalesRevenueReport2.filteredTransactions term rows) ->
     List.In r rows) /\
  (forall r, List.In r rows ->
     List.In r (SalesRevenueReport2.filteredTransactions (SalesRevenueReport2.r_id r) rows) /\
     List.In r (SalesRevenueReport2.filteredTransactions
                  (SalesRevenueReport2.r_buyerName r) rows)).
Proof.
  unfold SalesRevenueReport2.filteredTransactions. split; [|split].
  - induction rows as [|r rest IH]; simpl; [reflexivity|].
    rewrite includes_empty. simpl. f_equal. exact IH.
  - intros term r Hin. exact (filter_incl _ _ _ Hin).
  - intros r Hin. split; apply List.filter_In; split; try exact Hin;
      rewrite includes_refl; rewrite ?orb_true_r; reflexivity.
Qed.

(** The estimator in closed form: gross profit is half of revenue plus
    shipping fees, net profit that minus 50000; a failed fetch leaves the
    displayed figures and the chart as they were. *)
Theorem financial_closed_form (docs : list Order) :
  let f := FinancialDashboard.fetchMonthlyData
             (FinancialDashboard.mkMonthlyFinancials 0 0 0 0 0) (Some docs) in
  Qeq (FinancialDashboard.grossProfit f)
      ((FinancialDashboard.revenue f + FinancialDashboard.shippingFees f) / 2) /\
  Qeq (FinancialDashboard.netProfit f)
      ((FinancialDashboard.revenue f + FinancialDashboard.shippingFees f) / 2 - inject_Z 50000) /\
  (forall prev, FinancialDashboard.fetchMonthlyData prev None = prev) /\
  (forall prev months, (exists m, List.In m months /\ snd m = None) ->
     FinancialDashboard.fetchChartData prev months = prev).
Proof.
  simpl. destruct (FinancialDashboard.sums docs) as [r s]. simpl.
  split; [field|]. split; [unfold FinancialDashboard.expenses_const; field|].
  split; [reflexivity|].
  intros prev months (m & Hm & Hn). unfold FinancialDashboard.fetchChartData.
  assert (H : FinancialDashboard.chartLoop months = None).
  { induction months as [|[n [ds|]] rest IH]; simpl in *.
    - contradiction.
    - destruct Hm as [<-|Hm]; [discriminate|]. rewrite (IH Hm). reflexivity.
    - reflexivity. }
  rewrite H. reflexivity.
Qed.

Lemma financial_closed_form_witness :
  FinancialDashboard.fetchChartData [] [("Mei"%string, None)] = [].
Proof.
  refine (proj2 (proj2 (proj2 (financial_closed_form []))) [] [("Mei"%string, None)] _).
  exists ("Mei"%string, None). split; [left; reflexivity|reflexivity].
Defined.

Lemma report2_search_witness :
  List.In (SalesRevenueReport2.mkTxRow "ord1" "Budi")
    (SalesRevenueReport2.filteredTransactions "Budi"
       [SalesRevenueReport2.mkTxRow "ord1" "Budi"]).
Proof.
  exact (proj2 (proj2 (proj2 (report2_search [SalesRevenueReport2.mkTxRow "ord1" "Budi"]))
                  (SalesRevenueReport2.mkTxRow "ord1" "Budi") (or_introl eq_refl))).
Defined.
